(** * sokol_defines.h: the preprocessor configuration header of kc85.zig

    The header [src/sokol/c/sokol_defines.h] is sixteen lines of
    conditional compilation.  It is embedded here as a program of a small
    preprocessor monad: the state is the macro table together with the
    list of directives the header has executed so far, [defined] reads
    the table, [define] and [include] update it.  The properties below
    are stated over an arbitrary initial macro table (whatever the
    compiler and the command line predefine) and an arbitrary system
    header. *)

From stdpp Require Import gmap strings list.

(** ** Macros and directives *)

(** A macro definition: [m_params] is [None] for an object-like macro and
    the parameter list for a function-like one; [m_body] is the
    replacement list as written. *)
Record macro : Type := Macro {
  m_params : option (list string);
  m_body : string
}.

Definition object_like (body : string) : macro := Macro None body.
Definition function_like (params : list string) (body : string) : macro :=
  Macro (Some params) body.

(** The directives that change what later code sees. *)
Inductive directive : Type :=
  | Define (name : string) (m : macro)
  | Undef (name : string)
  | Include (file : string).

(** Preprocessor state: the current macro table and the directives
    executed by the header itself, oldest first. *)
Record pp_state : Type := PPState {
  macros : gmap string macro;
  trace : list directive
}.

(** ** The preprocessor monad *)

Definition PP (A : Type) : Type := pp_state -> A * pp_state.

Definition pp_ret {A} (a : A) : PP A := fun s => (a, s).

Definition pp_bind {A B} (c : PP A) (k : A -> PP B) : PP B :=
  fun s => let (a, s') := c s in k a s'.

Declare Scope pp_scope.
Delimit Scope pp_scope with pp.
Notation "x <- c ;; k" := (pp_bind c (fun x => k))
  (at level 20, c at level 99, k at level 200, only parsing) : pp_scope.
Notation "c ;; k" := (pp_bind c (fun _ => k))
  (at level 100, k at level 200, right associativity) : pp_scope.

Section Preprocessor.

(** What including a system header does to the macro table.  The
    contents of [<TargetConditionals.h>] belong to the platform SDK,
    not to this repository, so they stay a parameter. *)
Variable system_header : string -> gmap string macro -> gmap string macro.

(** [defined(X)] *)
Definition defined (x : string) : PP bool :=
  fun s => (bool_decide (is_Some (macros s !! x)), s).

(** [!c] *)
Definition pp_not (c : PP bool) : PP bool :=
  (b <- c ;; pp_ret (negb b))%pp.

(** [#define x m] *)
Definition define (x : string) (m : macro) : PP unit :=
  fun s => (tt, PPState (<[x := m]> (macros s)) (trace s ++ [Define x m])).

(** [#include <f>] *)
Definition include (f : string) : PP unit :=
  fun s => (tt, PPState (system_header f (macros s)) (trace s ++ [Include f])).

(** [#if c ... #endif] *)
Definition pp_if (c : PP bool) (body : PP unit) : PP unit :=
  (b <- c ;; if b then body else pp_ret tt)%pp.

(** [#if c ... #else ... #endif]; an [#elif] is an [#if] nested in the
    [#else] group, so its condition is only evaluated when the first
    one is false. *)
Definition pp_if_else (c : PP bool) (body other : PP unit) : PP unit :=
  (b <- c ;; if b then body else other)%pp.

(** ** The header *)

(** [sokol_defines.h], directive by directive: lines 1-3 the entry-point
    group, lines 4-12 the backend conditional, lines 14-16 the include
    for macOS (line 13 is a comment). *)
Definition sokol_defines : PP unit :=
  (pp_if (pp_not (defined "__ANDROID__"))
     (define "SOKOL_NO_ENTRY" (object_like "")) ;;
   pp_if_else (defined "_WIN32")
     (define "SOKOL_WIN32_FORCE_MAIN" (object_like "") ;;
      define "SOKOL_D3D11" (object_like "") ;;
      define "SOKOL_LOG" (function_like ["msg"] "OutputDebugStringA(msg)"))
     (pp_if_else (defined "__APPLE__")
        (define "SOKOL_METAL" (object_like ""))
        (define "SOKOL_GLCORE33" (object_like ""))) ;;
   pp_if (defined "__APPLE__")
     (include "TargetConditionals.h"))%pp.

(** Preprocessing the header from the macro table [t]. *)
Definition preprocess (t : gmap string macro) : pp_state :=
  snd (sokol_defines (PPState t [])).

(** The directives the header executes from [t]. *)
Definition emitted (t : gmap string macro) : list directive :=
  trace (preprocess t).

End Preprocessor.

(** ** Observations on a trace *)

Fixpoint defined_names (tr : list directive) : list string :=
  match tr with
  | [] => []
  | Define x _ :: tr' => x :: defined_names tr'
  | _ :: tr' => defined_names tr'
  end.

Fixpoint undefined_names (tr : list directive) : list string :=
  match tr with
  | [] => []
  | Undef x :: tr' => x :: undefined_names tr'
  | _ :: tr' => undefined_names tr'
  end.

Fixpoint included_files (tr : list directive) : list string :=
  match tr with
  | [] => []
  | Include f :: tr' => f :: included_files tr'
  | _ :: tr' => included_files tr'
  end.

(** Is [x] defined in the table [t]? *)
Definition is_defined (x : string) (t : gmap string macro) : bool :=
  bool_decide (is_Some (t !! x)).

(** Does a trace contain a [#define] of [x]? *)
Definition defines (x : string) (tr : list directive) : bool :=
  bool_decide (x ∈ defined_names tr).

(** The three backend-selection macros and the whole interface. *)
Definition backend_macros : list string :=
  ["SOKOL_D3D11"; "SOKOL_METAL"; "SOKOL_GLCORE33"].

Definition interface_macros : list string :=
  ["SOKOL_NO_ENTRY"; "SOKOL_WIN32_FORCE_MAIN"; "SOKOL_D3D11";
   "SOKOL_LOG"; "SOKOL_METAL"; "SOKOL_GLCORE33"].

(** A target platform configuration: which of the three identifiers the
    compiler predefines. *)
Record platform : Type := Platform {
  android : bool;
  win32 : bool;
  apple : bool
}.

Definition predef (b : bool) (x : string) (t : gmap string macro) :
    gmap string macro :=
  if b then <[x := object_like "1"]> t else t.

Definition predefined (p : platform) : gmap string macro :=
  predef (android p) "__ANDROID__"
    (predef (win32 p) "_WIN32"
       (predef (apple p) "__APPLE__" ∅)).

(** ** The header as a table of its three tests *)

(** What each of the three conditionals contributes to the trace, as a
    function of the outcome of its tests; [emitted_groups] below proves
    that the header executes exactly these directives. *)
Definition entry_group (a : bool) : list directive :=
  if a then [] else [Define "SOKOL_NO_ENTRY" (object_like "")].

Definition backend_group (w p : bool) : list directive :=
  if w then
    [Define "SOKOL_WIN32_FORCE_MAIN" (object_like "");
     Define "SOKOL_D3D11" (object_like "");
     Define "SOKOL_LOG" (function_like ["msg"] "OutputDebugStringA(msg)")]
  else if p then [Define "SOKOL_METAL" (object_like "")]
  else [Define "SOKOL_GLCORE33" (object_like "")].

Definition include_group (p : bool) : list directive :=
  if p then [Include "TargetConditionals.h"] else [].

(** Replaying a trace on a macro table. *)
Definition replay (sys : string -> gmap string macro -> gmap string macro)
    (tr : list directive) (t : gmap string macro) : gmap string macro :=
  foldl (fun m d =>
           match d with
           | Define x v => <[x := v]> m
           | Undef x => delete x m
           | Include f => sys f m
           end) t tr.

(** ** Concrete configurations *)

(** A system header that defines nothing, and one that stands for the
    SDK's [TargetConditionals.h] in the examples. *)
Definition no_system_header (f : string) (m : gmap string macro) :
    gmap string macro := m.

Definition sdk_header (f : string) (m : gmap string macro) :
    gmap string macro :=
  if decide (f = "TargetConditionals.h")
  then <["TARGET_OS_MAC" := object_like "1"]> m
  else m.

Definition linux : platform := Platform false false false.
Definition android_arm : platform := Platform true false false.
Definition windows : platform := Platform false true false.
Definition macos : platform := Platform false false true.

(** A cross toolchain that predefines both [_WIN32] and [__APPLE__]. *)
Definition win_and_apple : platform := Platform false true true.

(** A Windows table with a compiler version macro besides. *)
Definition msvc_table : gmap string macro :=
  <["_MSC_VER" := object_like "1929"]> (predefined windows).

(** ** Including the header again *)

(** The three identifiers the header tests. *)
Definition platform_identifiers : list string :=
  ["__ANDROID__"; "_WIN32"; "__APPLE__"].

(** The shape of a directive of the header: a [#define] is a flag with an
    empty replacement list, except [SOKOL_LOG], which takes one argument
    and forwards it to [OutputDebugStringA]. *)
Definition flag_or_log (d : directive) : Prop :=
  match d with
  | Define x m =>
      if decide (x = "SOKOL_LOG")
      then m = function_like ["msg"] "OutputDebugStringA(msg)"
      else m = object_like ""
  | Undef _ => False
  | Include _ => True
  end.

(** A [#define] that repeats the definition the table [t] already holds
    (the only redefinition C allows). *)
Definition repeats_definition (t : gmap string macro) (d : directive) : Prop :=
  match d with
  | Define x m => t !! x = Some m
  | Undef _ => False
  | Include _ => True
  end.

(** ** Proof automation for runs of the header *)

Ltac pp_unfold :=
  unfold sokol_defines, pp_if, pp_if_else, pp_not, pp_bind, pp_ret,
    defined, define, include.

(** One conditional: move the test back to the initial table (no
    [#define] of the header touches a tested identifier), decide it from
    the hypotheses and enter the selected group. *)
Ltac pp_step :=
  progress
    (rewrite ?lookup_insert_ne by done;
     try match goal with
         | H : bool_decide (is_Some (?t !! ?x)) = _
           |- context [bool_decide (is_Some (?t !! ?x))] => rewrite H
         end;
     cbn [negb macros trace snd fst app]).

Ltac pp_run t :=
  unfold preprocess, is_defined; pp_unfold;
  cbn [macros trace snd fst];
  destruct (bool_decide (is_Some (t !! "__ANDROID__"))) eqn:?,
    (bool_decide (is_Some (t !! "_WIN32"))) eqn:?,
    (bool_decide (is_Some (t !! "__APPLE__"))) eqn:?;
  repeat pp_step.

(** * Running the header *)

Example run_linux :
  emitted no_system_header (predefined linux) =
    [Define "SOKOL_NO_ENTRY" (object_like "");
     Define "SOKOL_GLCORE33" (object_like "")].
Proof. reflexivity. Qed.

Example run_android :
  emitted no_system_header (predefined android_arm) =
    [Define "SOKOL_GLCORE33" (object_like "")].
Proof. reflexivity. Qed.

Example run_windows :
  emitted no_system_header (predefined windows) =
    [Define "SOKOL_NO_ENTRY" (object_like "");
     Define "SOKOL_WIN32_FORCE_MAIN" (object_like "");
     Define "SOKOL_D3D11" (object_like "");
     Define "SOKOL_LOG" (function_like ["msg"] "OutputDebugStringA(msg)")].
Proof. reflexivity. Qed.

Example run_macos :
  emitted sdk_header (predefined macos) =
    [Define "SOKOL_NO_ENTRY" (object_like "");
     Define "SOKOL_METAL" (object_like "");
     Include "TargetConditionals.h"].
Proof. reflexivity. Qed.

Example table_macos :
  dom (macros (preprocess sdk_header (predefined macos))) =
    {["__APPLE__"; "SOKOL_NO_ENTRY"; "SOKOL_METAL"; "TARGET_OS_MAC"]}.
Proof. apply (bool_decide_unpack _). vm_compute. reflexivity. Qed.

(** * The trace in terms of the three tests *)

Lemma defined_names_app tr1 tr2 :
  defined_names (tr1 ++ tr2) = defined_names tr1 ++ defined_names tr2.
Proof.
  induction tr1 as [|[x m|x|f] tr1 IH]; cbn; [done|by f_equal|done|done].
Qed.

Lemma undefined_names_app tr1 tr2 :
  undefined_names (tr1 ++ tr2) = undefined_names tr1 ++ undefined_names tr2.
Proof.
  induction tr1 as [|[x m|x|f] tr1 IH]; cbn; [done|done|by f_equal|done].
Qed.

Lemma included_files_app tr1 tr2 :
  included_files (tr1 ++ tr2) = included_files tr1 ++ included_files tr2.
Proof.
  induction tr1 as [|[x m|x|f] tr1 IH]; cbn; [done|done|done|by f_equal].
Qed.

Lemma emitted_groups sys t :
  emitted sys t =
    entry_group (is_defined "__ANDROID__" t) ++
    backend_group (is_defined "_WIN32" t) (is_defined "__APPLE__" t) ++
    include_group (is_defined "__APPLE__" t).
Proof. unfold emitted. pp_run t; reflexivity. Qed.

(** The trace is a faithful account of the state change: replaying it on
    the initial table gives the final table. *)
Lemma preprocess_replay sys t :
  macros (preprocess sys t) = replay sys (emitted sys t) t.
Proof. rewrite emitted_groups. pp_run t; reflexivity. Qed.

(** The names the header defines, group by group. *)
Lemma defined_names_emitted sys t :
  defined_names (emitted sys t) =
    defined_names (entry_group (is_defined "__ANDROID__" t)) ++
    defined_names
      (backend_group (is_defined "_WIN32" t) (is_defined "__APPLE__" t)).
Proof.
  rewrite emitted_groups, !defined_names_app.
  destruct (is_defined "__APPLE__" t); cbn; by rewrite app_nil_r.
Qed.

(** Which backend macro each outcome of the two tests selects. *)
Lemma defines_backends sys t :
  let w := is_defined "_WIN32" t in
  let p := is_defined "__APPLE__" t in
  defines "SOKOL_D3D11" (emitted sys t) = w /\
  defines "SOKOL_METAL" (emitted sys t) = negb w && p /\
  defines "SOKOL_GLCORE33" (emitted sys t) = negb w && negb p.
Proof.
  cbn zeta. unfold defines. rewrite defined_names_emitted.
  by destruct (is_defined "__ANDROID__" t), (is_defined "_WIN32" t),
    (is_defined "__APPLE__" t).
Qed.

Lemma defines_windows_only sys t :
  defines "SOKOL_WIN32_FORCE_MAIN" (emitted sys t) = is_defined "_WIN32" t /\
  defines "SOKOL_LOG" (emitted sys t) = is_defined "_WIN32" t.
Proof.
  unfold defines. rewrite defined_names_emitted.
  by destruct (is_defined "__ANDROID__" t), (is_defined "_WIN32" t),
    (is_defined "__APPLE__" t).
Qed.

Lemma entry_group_interface a :
  Forall (fun x => x ∈ interface_macros) (defined_names (entry_group a)).
Proof.
  destruct a; cbn; [constructor|].
  apply Forall_singleton. unfold interface_macros. set_solver.
Qed.

Lemma backend_group_interface w p :
  Forall (fun x => x ∈ interface_macros) (defined_names (backend_group w p)).
Proof.
  unfold interface_macros.
  destruct w, p; cbn; rewrite ?Forall_cons, ?Forall_singleton; set_solver.
Qed.

(** Every combination of the three identifiers is the outcome of the
    tests on some table. *)
Lemma predefined_tests p :
  is_defined "__ANDROID__" (predefined p) = android p /\
  is_defined "_WIN32" (predefined p) = win32 p /\
  is_defined "__APPLE__" (predefined p) = apple p.
Proof. by destruct p as [[] [] []]. Qed.

(** * The claims *)

(** C1: whatever the macro table is, and so for every combination of
    [__ANDROID__], [_WIN32] and [__APPLE__], the header defines exactly one
    of [SOKOL_D3D11], [SOKOL_METAL] and [SOKOL_GLCORE33] (by a single
    [#define]) and does not define the other two. *)
Theorem exactly_one_backend sys t :
  let tr := emitted sys t in
  ((defines "SOKOL_D3D11" tr = true /\
    defines "SOKOL_METAL" tr = false /\
    defines "SOKOL_GLCORE33" tr = false) \/
   (defines "SOKOL_D3D11" tr = false /\
    defines "SOKOL_METAL" tr = true /\
    defines "SOKOL_GLCORE33" tr = false) \/
   (defines "SOKOL_D3D11" tr = false /\
    defines "SOKOL_METAL" tr = false /\
    defines "SOKOL_GLCORE33" tr = true)) /\
  length (filter (fun x => x ∈ backend_macros) (defined_names tr)) = 1.
Proof.
  cbn zeta. split.
  - destruct (defines_backends sys t) as (-> & -> & ->).
    destruct (is_defined "_WIN32" t), (is_defined "__APPLE__" t); cbn; auto.
  - rewrite defined_names_emitted.
    by destruct (is_defined "__ANDROID__" t), (is_defined "_WIN32" t),
      (is_defined "__APPLE__" t).
Qed.

(** C2: the header defines [SOKOL_LOG] exactly when [_WIN32] is defined,
    that is, exactly when the first group of the backend conditional is
    the one selected. *)
Theorem log_iff_win32 sys t :
  defines "SOKOL_LOG" (emitted sys t) = is_defined "_WIN32" t.
Proof. apply defines_windows_only. Qed.

(** C3: the header defines [SOKOL_NO_ENTRY] exactly when [__ANDROID__] is
    not defined, whatever [_WIN32] and [__APPLE__] are. *)
Theorem no_entry_iff_not_android sys t :
  defines "SOKOL_NO_ENTRY" (emitted sys t) =
    negb (is_defined "__ANDROID__" t).
Proof.
  unfold defines. rewrite defined_names_emitted.
  destruct (is_defined "__ANDROID__" t); cbn [entry_group defined_names negb].
  - rewrite app_nil_l.
    by destruct (is_defined "_WIN32" t), (is_defined "__APPLE__" t).
  - apply bool_decide_eq_true. set_solver.
Qed.

(** C4, as the spec states it, fails: no macro table leaves the header
    without a backend macro. *)
Lemma no_platform_without_backend :
  ~ exists sys t, forall b,
      b ∈ backend_macros -> defines b (emitted sys t) = false.
Proof.
  intros (sys & t & H).
  destruct (defines_backends sys t) as (Hd & Hm & Hg).
  rewrite H in Hd, Hm, Hg by (unfold backend_macros; set_solver).
  destruct (is_defined "_WIN32" t), (is_defined "__APPLE__" t); discriminate.
Qed.

(** C4, amended: the [#else] group is the fallback.  It is the one
    selected exactly when neither [_WIN32] nor [__APPLE__] is defined, and
    it defines [SOKOL_GLCORE33]; so every table receives a backend macro. *)
Theorem else_group_is_fallback sys t :
  defines "SOKOL_GLCORE33" (emitted sys t) =
    negb (is_defined "_WIN32" t) && negb (is_defined "__APPLE__" t) /\
  exists b, b ∈ backend_macros /\ defines b (emitted sys t) = true.
Proof.
  destruct (defines_backends sys t) as (Hd & Hm & Hg).
  split; [done|]. unfold backend_macros.
  destruct (is_defined "_WIN32" t), (is_defined "__APPLE__" t); cbn in *;
    [exists "SOKOL_D3D11"|exists "SOKOL_D3D11"
    |exists "SOKOL_METAL"|exists "SOKOL_GLCORE33"];
    (split; [set_solver|done]).
Qed.

(** C5: the lookup from platform to backend.  With [_WIN32] defined the
    header defines [SOKOL_D3D11] and [SOKOL_WIN32_FORCE_MAIN]; with
    [__APPLE__] defined and [_WIN32] not, [SOKOL_METAL]; otherwise
    [SOKOL_GLCORE33]. *)
Theorem backend_lookup sys t :
  let tr := emitted sys t in
  match is_defined "_WIN32" t, is_defined "__APPLE__" t with
  | true, _ =>
      defines "SOKOL_D3D11" tr = true /\
      defines "SOKOL_WIN32_FORCE_MAIN" tr = true
  | false, true => defines "SOKOL_METAL" tr = true
  | false, false => defines "SOKOL_GLCORE33" tr = true
  end.
Proof.
  cbn zeta.
  destruct (defines_backends sys t) as (Hd & Hm & Hg).
  destruct (defines_windows_only sys t) as (Hf & _).
  destruct (is_defined "_WIN32" t), (is_defined "__APPLE__" t); auto.
Qed.

(** C6: the only file the header includes is [TargetConditionals.h], and
    it includes it exactly when [__APPLE__] is defined. *)
Theorem include_iff_apple sys t :
  included_files (emitted sys t) =
    if is_defined "__APPLE__" t then ["TargetConditionals.h"] else [].
Proof.
  rewrite emitted_groups, !included_files_app.
  by destruct (is_defined "__ANDROID__" t), (is_defined "_WIN32" t),
    (is_defined "__APPLE__" t).
Qed.

(** C7: among the directives the header executes no name is defined
    twice and none is undefined; and on a table that holds only platform
    identifiers, each [#define] introduces a name that was not defined
    before. *)
Theorem macros_never_mutated sys t p :
  NoDup (defined_names (emitted sys t)) /\
  undefined_names (emitted sys t) = [] /\
  Forall (fun x => predefined p !! x = None)
    (defined_names (emitted sys (predefined p))).
Proof.
  split; [|split].
  - rewrite defined_names_emitted.
    destruct (is_defined "__ANDROID__" t), (is_defined "_WIN32" t),
      (is_defined "__APPLE__" t); cbn; by apply (bool_decide_unpack _).
  - rewrite emitted_groups, !undefined_names_app.
    by destruct (is_defined "__ANDROID__" t), (is_defined "_WIN32" t),
      (is_defined "__APPLE__" t).
  - rewrite defined_names_emitted.
    destruct (predefined_tests p) as (-> & -> & ->).
    destruct p as [[] [] []]; cbn; rewrite ?Forall_cons, ?Forall_nil; done.
Qed.

(** C8: every name the header defines is one of the six interface
    macros; and, the system header apart, the table it leaves differs
    from the initial one only at those names. *)
Theorem defines_only_interface sys t :
  Forall (fun x => x ∈ interface_macros) (defined_names (emitted sys t)) /\
  forall x, x ∈ interface_macros \/
            macros (preprocess no_system_header t) !! x = t !! x.
Proof.
  split.
  - rewrite defined_names_emitted. apply Forall_app.
    split; [apply entry_group_interface|apply backend_group_interface].
  - intros x. destruct (decide (x ∈ interface_macros)) as [|Hx]; [by left|].
    right. rewrite preprocess_replay, emitted_groups.
    unfold interface_macros in Hx.
    destruct (is_defined "__ANDROID__" t), (is_defined "_WIN32" t),
      (is_defined "__APPLE__" t); cbn;
      rewrite ?lookup_insert_ne by set_solver; done.
Qed.

(** C9: with both [_WIN32] and [__APPLE__] defined the Windows group is
    the one selected. *)
Theorem windows_has_priority sys t :
  is_defined "_WIN32" t = true ->
  is_defined "__APPLE__" t = true ->
  let tr := emitted sys t in
  defines "SOKOL_D3D11" tr = true /\
  defines "SOKOL_WIN32_FORCE_MAIN" tr = true /\
  defines "SOKOL_LOG" tr = true /\
  defines "SOKOL_METAL" tr = false.
Proof.
  intros Hw Hp. cbn zeta.
  destruct (defines_backends sys t) as (Hd & Hm & _).
  destruct (defines_windows_only sys t) as (Hf & Hl).
  rewrite Hw in Hd, Hm, Hf, Hl. rewrite Hp in Hm. done.
Qed.

Lemma windows_has_priority_witness :
  is_defined "_WIN32" (predefined win_and_apple) = true /\
  is_defined "__APPLE__" (predefined win_and_apple) = true /\
  defines "SOKOL_D3D11"
    (emitted sdk_header (predefined win_and_apple)) = true /\
  defines "SOKOL_WIN32_FORCE_MAIN"
    (emitted sdk_header (predefined win_and_apple)) = true /\
  defines "SOKOL_LOG"
    (emitted sdk_header (predefined win_and_apple)) = true /\
  defines "SOKOL_METAL"
    (emitted sdk_header (predefined win_and_apple)) = false.
Proof.
  split; [reflexivity|]. split; [reflexivity|].
  apply (windows_has_priority sdk_header (predefined win_and_apple));
    reflexivity.
Defined.

(** C10: the directives the header executes, macro bodies included, are
    a function of the three tests alone: two runs whose tables agree on
    [__ANDROID__], [_WIN32] and [__APPLE__] execute the same directives,
    whatever else the tables hold and whatever the system headers do. *)
Theorem three_inputs_determine_output sys1 sys2 t1 t2 :
  is_defined "__ANDROID__" t1 = is_defined "__ANDROID__" t2 ->
  is_defined "_WIN32" t1 = is_defined "_WIN32" t2 ->
  is_defined "__APPLE__" t1 = is_defined "__APPLE__" t2 ->
  emitted sys1 t1 = emitted sys2 t2.
Proof.
  intros Ha Hw Hp. rewrite !emitted_groups. congruence.
Qed.

Lemma three_inputs_determine_output_witness :
  predefined windows <> msvc_table /\
  emitted no_system_header (predefined windows) =
    emitted sdk_header msvc_table.
Proof.
  split.
  - intros H. apply (f_equal (fun m => m !! "_MSC_VER")) in H.
    vm_compute in H. discriminate H.
  - apply (three_inputs_determine_output no_system_header sdk_header
             (predefined windows) msvc_table); reflexivity.
Defined.

(** Each of the three identifiers does change the outcome. *)
Lemma each_identifier_matters :
  emitted no_system_header (predefined android_arm) <>
    emitted no_system_header (predefined linux) /\
  emitted no_system_header (predefined windows) <>
    emitted no_system_header (predefined linux) /\
  emitted no_system_header (predefined macos) <>
    emitted no_system_header (predefined linux).
Proof. repeat split; discriminate. Qed.

(** * Beyond the claims: the macro table and repeated inclusion *)

Lemma is_defined_insert x y m (t : gmap string macro) :
  is_defined x (<[y := m]> t) = bool_decide (x = y) || is_defined x t.
Proof.
  unfold is_defined. destruct (decide (x = y)) as [->|Hne].
  - rewrite lookup_insert_eq, (bool_decide_eq_true_2 (y = y)) by done.
    done.
  - rewrite lookup_insert_ne by done.
    by rewrite (bool_decide_eq_false_2 (x = y)).
Qed.

Lemma defines_cons_define x y m tr :
  defines x (Define y m :: tr) = bool_decide (x = y) || defines x tr.
Proof.
  unfold defines. cbn [defined_names].
  destruct (decide (x = y)) as [->|Hne].
  - rewrite (bool_decide_eq_true_2 (y = y)) by done.
    apply bool_decide_eq_true_2. set_solver.
  - rewrite (bool_decide_eq_false_2 (x = y)) by done. cbn.
    apply bool_decide_ext. rewrite elem_of_cons. tauto.
Qed.

(** Replaying a trace with no [#undef], system headers apart: a name is
    defined afterwards exactly when it was before or the trace defines
    it. *)
Lemma replay_is_defined tr : forall t x,
  undefined_names tr = [] ->
  is_defined x (replay no_system_header tr t) =
    is_defined x t || defines x tr.
Proof.
  induction tr as [|[y m|y|f] tr IH]; intros t x Hu; cbn in Hu.
  - unfold defines. cbn. by rewrite orb_false_r.
  - change (replay no_system_header (Define y m :: tr) t)
      with (replay no_system_header tr (<[y := m]> t)).
    rewrite IH, is_defined_insert, defines_cons_define by done.
    by destruct (bool_decide (x = y)), (is_defined x t), (defines x tr).
  - discriminate Hu.
  - change (replay no_system_header (Include f :: tr) t)
      with (replay no_system_header tr t).
    by rewrite IH.
Qed.

Lemma emitted_no_undef sys t : undefined_names (emitted sys t) = [].
Proof.
  rewrite emitted_groups, !undefined_names_app.
  by destruct (is_defined "__ANDROID__" t), (is_defined "_WIN32" t),
    (is_defined "__APPLE__" t).
Qed.

(** The table the header leaves, in terms of the table it leaves when the
    system header changes nothing. *)
Lemma preprocess_system_header sys t :
  macros (preprocess sys t) =
    if is_defined "__APPLE__" t
    then sys "TargetConditionals.h" (macros (preprocess no_system_header t))
    else macros (preprocess no_system_header t).
Proof.
  rewrite !preprocess_replay, !emitted_groups.
  by destruct (is_defined "__ANDROID__" t), (is_defined "_WIN32" t),
    (is_defined "__APPLE__" t).
Qed.

(** The header leaves the outcome of its own tests as it found it, when
    the system header does. *)
Lemma preprocess_keeps_tests sys t x :
  (forall m y, y ∈ platform_identifiers ->
     is_defined y (sys "TargetConditionals.h" m) = is_defined y m) ->
  x ∈ platform_identifiers ->
  is_defined x (macros (preprocess sys t)) = is_defined x t.
Proof.
  intros Hsys Hx. rewrite preprocess_system_header.
  assert (is_defined x (macros (preprocess no_system_header t)) =
          is_defined x t) as Hn.
  { rewrite preprocess_replay, replay_is_defined by apply emitted_no_undef.
    unfold defines. rewrite defined_names_emitted.
    rewrite (bool_decide_eq_false_2 (x ∈ _)); [by rewrite orb_false_r|].
    unfold platform_identifiers in Hx.
    repeat (apply elem_of_cons in Hx as [->|Hx]);
      [| | |by apply elem_of_nil in Hx].
    all: destruct (is_defined "__ANDROID__" t), (is_defined "_WIN32" t),
      (is_defined "__APPLE__" t); by apply (bool_decide_unpack _). }
  destruct (is_defined "__APPLE__" t); [rewrite Hsys by done|]; exact Hn.
Qed.

(** X1: every directive the header executes is an include or a [#define]
    of a flag with an empty replacement list, the one exception being
    [SOKOL_LOG], a function-like macro of the single parameter [msg] that
    expands to [OutputDebugStringA(msg)]. *)
Theorem defines_are_flags_or_log sys t :
  Forall flag_or_log (emitted sys t).
Proof.
  rewrite emitted_groups.
  destruct (is_defined "__ANDROID__" t), (is_defined "_WIN32" t),
    (is_defined "__APPLE__" t); cbn [entry_group backend_group include_group app];
    repeat (apply Forall_cons; split; [done|]); apply Forall_nil_2.
Qed.

(** X2: the header has no include guard, and needs none for its
    directives: if the system header leaves the three tested identifiers
    as they are, a second inclusion executes the same directives as the
    first. *)
Theorem second_inclusion_same_directives sys t :
  (forall m y, y ∈ platform_identifiers ->
     is_defined y (sys "TargetConditionals.h" m) = is_defined y m) ->
  emitted sys (macros (preprocess sys t)) = emitted sys t.
Proof.
  intros Hsys. rewrite (emitted_groups sys (macros _)), emitted_groups.
  rewrite !(preprocess_keeps_tests sys t) by
    (done || (unfold platform_identifiers; set_solver)).
  done.
Qed.

Lemma second_inclusion_same_directives_witness :
  (forall m y, y ∈ platform_identifiers ->
     is_defined y (no_system_header "TargetConditionals.h" m) =
       is_defined y m) /\
  emitted no_system_header
    (macros (preprocess no_system_header (predefined macos))) =
    emitted no_system_header (predefined macos).
Proof.
  split; [intros; reflexivity|].
  apply (second_inclusion_same_directives no_system_header (predefined macos)).
  intros; reflexivity.
Defined.

(** For every [#define] the header executed the final table holds that
    definition, when the system header leaves the interface alone. *)
Lemma emitted_in_force sys t :
  (forall m x, x ∈ interface_macros ->
     sys "TargetConditionals.h" m !! x = m !! x) ->
  Forall (repeats_definition (macros (preprocess sys t))) (emitted sys t).
Proof.
  intros Hsys.
  assert (forall x, x ∈ interface_macros ->
            macros (preprocess sys t) !! x =
            macros (preprocess no_system_header t) !! x) as Hl.
  { intros x Hx. rewrite preprocess_system_header.
    destruct (is_defined "__APPLE__" t); [by apply Hsys|done]. }
  rewrite (preprocess_replay no_system_header),
    (emitted_groups no_system_header) in Hl.
  rewrite emitted_groups. unfold interface_macros in Hl.
  destruct (is_defined "__ANDROID__" t), (is_defined "_WIN32" t),
    (is_defined "__APPLE__" t);
    cbn [entry_group backend_group include_group app];
    repeat (apply Forall_cons; split;
            [first [exact I | cbn; rewrite Hl by set_solver;
                              cbn; by simplify_map_eq]|]);
    apply Forall_nil_2.
Qed.

(** X3: what the header defines is in force afterwards.  If the system
    header leaves the six interface macros alone, then for every
    [#define] the header executed the final table holds exactly that
    definition, whatever the name was defined as before. *)
Theorem header_definitions_in_force sys t :
  (forall m x, x ∈ interface_macros ->
     sys "TargetConditionals.h" m !! x = m !! x) ->
  Forall (repeats_definition (macros (preprocess sys t))) (emitted sys t).
Proof. apply emitted_in_force. Qed.

Lemma header_definitions_in_force_witness :
  (forall m x, x ∈ interface_macros ->
     no_system_header "TargetConditionals.h" m !! x = m !! x) /\
  Forall
    (repeats_definition
       (macros (preprocess no_system_header
                  (<["SOKOL_D3D11" := object_like "1"]> (predefined windows)))))
    (emitted no_system_header
       (<["SOKOL_D3D11" := object_like "1"]> (predefined windows))).
Proof.
  split; [intros; reflexivity|].
  apply (header_definitions_in_force no_system_header
           (<["SOKOL_D3D11" := object_like "1"]> (predefined windows))).
  intros; reflexivity.
Defined.

(** X4: [SOKOL_WIN32_FORCE_MAIN] is defined exactly when [_WIN32] is, and
    so exactly when [SOKOL_D3D11] is. *)
Theorem force_main_iff_win32 sys t :
  defines "SOKOL_WIN32_FORCE_MAIN" (emitted sys t) = is_defined "_WIN32" t /\
  defines "SOKOL_WIN32_FORCE_MAIN" (emitted sys t) =
    defines "SOKOL_D3D11" (emitted sys t).
Proof.
  destruct (defines_windows_only sys t) as (Hf & _).
  destruct (defines_backends sys t) as (Hd & _).
  cbn zeta in Hd. by rewrite Hf, Hd.
Qed.

(** X5: off Apple the system header is never read: with [__APPLE__]
    undefined the final table and the trace are the same for any two
    system headers. *)
Theorem system_header_unused_off_apple sys1 sys2 t :
  is_defined "__APPLE__" t = false ->
  preprocess sys1 t = preprocess sys2 t.
Proof.
  intros Hp. unfold is_defined in Hp.
  unfold preprocess. pp_unfold. cbn [macros trace snd fst].
  destruct (bool_decide (is_Some (t !! "__ANDROID__"))) eqn:Ha,
    (bool_decide (is_Some (t !! "_WIN32"))) eqn:Hw;
    repeat pp_step; reflexivity.
Qed.

Lemma system_header_unused_off_apple_witness :
  is_defined "__APPLE__" (predefined windows) = false /\
  preprocess no_system_header (predefined windows) =
    preprocess sdk_header (predefined windows).
Proof.
  split; [reflexivity|].
  apply (system_header_unused_off_apple no_system_header sdk_header
           (predefined windows)).
  reflexivity.
Defined.

(** X6: on Apple the system header is applied once, after every
    [#define] of the header: the final table is the system header's
    result on the table the header's own definitions produce. *)
Theorem system_header_applied_last sys t :
  is_defined "__APPLE__" t = true ->
  macros (preprocess sys t) =
    sys "TargetConditionals.h" (macros (preprocess no_system_header t)) /\
  exists ds, emitted sys t = ds ++ [Include "TargetConditionals.h"] /\
             included_files ds = [].
Proof.
  intros Hp. split.
  - by rewrite preprocess_system_header, Hp.
  - rewrite emitted_groups, Hp.
    exists (entry_group (is_defined "__ANDROID__" t) ++
            backend_group (is_defined "_WIN32" t) true).
    split; [by rewrite <- app_assoc|].
    rewrite included_files_app.
    by destruct (is_defined "__ANDROID__" t), (is_defined "_WIN32" t).
Qed.

Lemma system_header_applied_last_witness :
  is_defined "__APPLE__" (predefined macos) = true /\
  macros (preprocess sdk_header (predefined macos)) =
    sdk_header "TargetConditionals.h"
      (macros (preprocess no_system_header (predefined macos))) /\
  exists ds,
    emitted sdk_header (predefined macos) =
      ds ++ [Include "TargetConditionals.h"] /\
    included_files ds = [].
Proof.
  split; [reflexivity|].
  apply (system_header_applied_last sdk_header (predefined macos)).
  reflexivity.
Defined.

(** X7: the header only adds to the set of defined names.  System header
    apart, a name is defined after the header exactly when it was defined
    before or the header defined it; nothing defined before is lost. *)
Theorem defined_after_header t x :
  is_defined x (macros (preprocess no_system_header t)) =
    is_defined x t || defines x (emitted no_system_header t).
Proof.
  rewrite preprocess_replay. apply replay_is_defined, emitted_no_undef.
Qed.


